(** * gradosphera-vesting-unlocker: the balance and withdrawal flow

    A shallow embedding of the two React components of the application,
    [BalanceDisplay] (src/components/BalanceDisplay.tsx) and [AppContent]
    (the application root), and the properties of their polling,
    withdrawal, validation and disconnect logic.

    How the code is read:
    - a component's [useState] cells form a record; the setters are the
      primitive actions of a small state-and-output monad [M];
    - calls that leave the component (the balance API, the wallet SDK, the QR
      encoder, timers, the console, the parent's callback) are recorded, in
      order, as [Effect]s;
    - an [async] function is cut at each [await]: the part that runs at the
      call, and one continuation per outcome of the awaited promise;
    - a function defined in the body of a component is a closure over the
      values of ONE render.  It reads props and state from that render
      ([Render]) while the setters write to the live state.  The interval
      callback armed by [useEffect] keeps the closure of the render whose
      effect armed it. *)

From Stdlib Require Import ZArith List String Bool Ascii DecimalString.
Import ListNotations.
Local Open Scope string_scope.
Local Open Scope list_scope.
Local Open Scope Z_scope.

(** ** A state-and-output monad for handler bodies *)

Definition M (S E A : Type) : Type := S -> A * S * list E.

Definition ret {S E A} (a : A) : M S E A := fun s => (a, s, []).

Definition bind {S E A B} (m : M S E A) (k : A -> M S E B) : M S E B :=
  fun s =>
    let '(a, s1, out1) := m s in
    let '(b, s2, out2) := k a s1 in
    (b, s2, out1 ++ out2).

Definition emit {S E} (e : E) : M S E unit := fun s => (tt, s, [e]).

Definition modify {S E} (f : S -> S) : M S E unit := fun s => (tt, f s, []).

Definition exec {S E A} (m : M S E A) (s : S) : S := snd (fst (m s)).

Definition output {S E A} (m : M S E A) (s : S) : list E := snd (m s).

Notation "c1 ;; c2" := (bind c1 (fun _ => c2))
  (at level 61, right associativity).

(** JavaScript truthiness of a string: only the empty string is falsy. *)
Definition truthy (s : string) : bool := negb (s =? "")%string.

(** ** Data model (src/contracts/types, src/utils/constants) *)

(** The four figures are [bigint]s. *)
Record WalletBalance := mkWalletBalance {
  availableToWithdraw : Z;
  stillLocked : Z;
  totalUserDeposit : Z;
  totalUserDepositAndReward : Z
}.

Record LockerAddressTable := mkLockerAddresses {
  mainnet : string;
  testnet : string
}.

(** ** Cells of @ton/core, as far as the component builds them *)

#[warnings="-register-all"]
Inductive Cell := mkCell (bits : list bool) (refs : list Cell).

Record Builder := mkBuilder {
  builder_bits : list bool;
  builder_refs : list Cell
}.

Definition cell_capacity : nat := 1023.

Definition beginCell : Builder := mkBuilder [] [].

Definition availableBits (b : Builder) : nat :=
  cell_capacity - List.length (builder_bits b).

(** [n] bits of [v], most significant first. *)
Definition uint_bits (v : Z) (n : nat) : list bool :=
  map (fun i => Z.testbit v (Z.of_nat (n - 1 - i))) (seq 0 n).

(** [storeUint(value, bits)]; the library throws ([None]) when the value does
    not fit the width or the cell has no room left. *)
Definition storeUint (value : Z) (n : nat) (b : Builder) : option Builder :=
  if (0 <=? value) && (value <? 2 ^ Z.of_nat n) && (n <=? availableBits b)%nat
  then Some (mkBuilder (builder_bits b ++ uint_bits value n) (builder_refs b))
  else None.

Definition byte_bits (c : ascii) : list bool :=
  let '(Ascii b0 b1 b2 b3 b4 b5 b6 b7) := c in
  [b7; b6; b5; b4; b3; b2; b1; b0].

Fixpoint string_bits (s : string) : list bool :=
  match s with
  | EmptyString => []
  | String c rest => byte_bits c ++ string_bits rest
  end.

(** [storeStringTail(src)] for a string whose bytes fit the room left in the
    cell: the bytes are appended.  A longer string is continued in reference
    cells by the library; the component only stores one byte, and that case
    is left out ([None]). *)
Definition storeStringTail (src : string) (b : Builder) : option Builder :=
  if (8 * String.length src <=? availableBits b)%nat
  then Some (mkBuilder (builder_bits b ++ string_bits src) (builder_refs b))
  else None.

Definition endCell (b : Builder) : Cell :=
  mkCell (builder_bits b) (builder_refs b).

(** [WITHDRAW_AMOUNT.toString()] of a [bigint]: its decimal digits. *)
Definition bigint_toString (z : Z) : string :=
  NilZero.string_of_int (Z.to_int z).

(** ** What the components import and this development does not see

    [LOCKER_ADDRESSES] and [WITHDRAW_AMOUNT] come from utils/constants,
    [formatContractAddress] and [generateWithdrawDeepLink] from utils/helpers;
    [boc_base64] stands for [cell.toBoc().toString('base64')] of @ton/core.
    They are parameters of everything below. *)
Class Imports := mkImports {
  LOCKER_ADDRESSES : LockerAddressTable;
  WITHDRAW_AMOUNT : Z;
  formatContractAddress : string -> bool -> string;
  generateWithdrawDeepLink : string -> bool -> string;
  boc_base64 : Cell -> string
}.

(** ** The component BalanceDisplay (src/components/BalanceDisplay.tsx) *)

Module BalanceDisplay.

Record Props := mkProps {
  address : string;
  isManual : bool;
  isTestnet : bool
}.

(** The six [useState] cells, lines 19-24. *)
Record State := mkState {
  balance : option WalletBalance;
  loading : bool;
  refreshing : bool;
  error : option string;
  showWithdrawModal : bool;
  qrCode : string
}.

(** Initial values of the cells. *)
Definition initialState : State :=
  mkState None true false None false "".

(** The values one render of the component sees; the closures created by
    that render read them from here. *)
Record Render := mkRender {
  props : Props;
  seen : State
}.

Record TransactionMessage := mkMessage {
  message_address : string;
  message_amount : string;
  message_payload : string
}.

Record SendTransactionRequest := mkRequest {
  messages : list TransactionMessage;
  validUntil : Z
}.

(** Calls leaving the component.  A timer carries the render whose closure
    it will run. *)
Inductive Effect :=
| getWalletBalance (testnet : bool) (locker user : string)
| setInterval (callback : Render) (ms : Z)
| clearInterval
| setTimeout (callback : Render) (ms : Z)
| QRCode_toDataURL (text : string)
| sendTransaction (request : SendTransactionRequest)
| tonConnectUI_disconnect
| onDisconnect
| console_error (message : string).

Definition Handler := M State Effect unit.

Definition setBalance (b : option WalletBalance) : Handler :=
  modify (fun s => mkState b (loading s) (refreshing s) (error s)
                           (showWithdrawModal s) (qrCode s)).

Definition setLoading (v : bool) : Handler :=
  modify (fun s => mkState (balance s) v (refreshing s) (error s)
                           (showWithdrawModal s) (qrCode s)).

Definition setRefreshing (v : bool) : Handler :=
  modify (fun s => mkState (balance s) (loading s) v (error s)
                           (showWithdrawModal s) (qrCode s)).

Definition setError (e : option string) : Handler :=
  modify (fun s => mkState (balance s) (loading s) (refreshing s) e
                           (showWithdrawModal s) (qrCode s)).

Definition setShowWithdrawModal (v : bool) : Handler :=
  modify (fun s => mkState (balance s) (loading s) (refreshing s) (error s)
                           v (qrCode s)).

Definition setQrCode (q : string) : Handler :=
  modify (fun s => mkState (balance s) (loading s) (refreshing s) (error s)
                           (showWithdrawModal s) q).

Section WithImports.
Context `{Imports}.

(** Lines 26-28. *)
Definition lockerAddress (r : Render) : string :=
  if isTestnet (props r)
  then testnet LOCKER_ADDRESSES
  else mainnet LOCKER_ADDRESSES.

Definition formattedLockerAddress (r : Render) : string :=
  formatContractAddress (lockerAddress r) (isTestnet (props r)).

(** *** loadBalance, lines 45-65 *)

(** Up to the [await]: the closure tests the [balance] of its own render. *)
Definition loadBalance (r : Render) : Handler :=
  (match balance (seen r) with
   | None => setLoading true
   | Some _ => setRefreshing true
   end) ;;
  setError None ;;
  emit (getWalletBalance (isTestnet (props r)) (lockerAddress r)
                         (address (props r))).

Definition loadBalance_finally : Handler :=
  setLoading false ;;
  setRefreshing false.

(** The awaited call returned [balanceData]. *)
Definition loadBalance_resolved (balanceData : WalletBalance) : Handler :=
  setBalance (Some balanceData) ;;
  loadBalance_finally.

(** The awaited call threw. *)
Definition loadBalance_rejected : Handler :=
  emit (console_error "Failed to load balance:") ;;
  setError (Some "Failed to load balance. Please try again.") ;;
  loadBalance_finally.

(** *** handleWithdraw, lines 67-102 *)

(** Lines 79-82: [beginCell().storeUint(0, 32).storeStringTail('w').endCell()]. *)
Definition withdrawBody : option Cell :=
  match storeUint 0 32 beginCell with
  | Some b1 =>
      match storeStringTail "w" b1 with
      | Some b2 => Some (endCell b2)
      | None => None
      end
  | None => None
  end.

Definition handleWithdraw_catch : Handler :=
  emit (console_error "Transaction failed:") ;;
  setError (Some "Transaction failed. Please try again.").

(** Up to the first [await]; [now] is what [Date.now()] returns. *)
Definition handleWithdraw (r : Render) (now : Z) : Handler :=
  match balance (seen r) with
  | None => ret tt
  | Some b =>
      if availableToWithdraw b =? 0 then ret tt
      else if isManual (props r) then
        emit (QRCode_toDataURL
                (generateWithdrawDeepLink (lockerAddress r)
                                          (isTestnet (props r))))
      else
        match withdrawBody with
        | Some body =>
            emit (sendTransaction
                    (mkRequest
                       [mkMessage (formattedLockerAddress r)
                                  (bigint_toString WITHDRAW_AMOUNT)
                                  (boc_base64 body)]
                       (now + 5 * 60 * 1000)))
        | None => handleWithdraw_catch
        end
  end.

(** Manual path, the QR encoder returned [qr]: lines 74-75. *)
Definition handleWithdraw_qr_resolved (qr : string) : Handler :=
  setQrCode qr ;;
  setShowWithdrawModal true.

(** Connected path, [sendTransaction] resolved: line 96.  The timeout will
    run the [loadBalance] of the render that handled the click. *)
Definition handleWithdraw_sent (r : Render) : Handler :=
  emit (setTimeout r 5000).

(** Connected path, [sendTransaction] rejected: lines 97-100. *)
Definition handleWithdraw_failed : Handler := handleWithdraw_catch.

(** *** handleDisconnect, lines 104-109 *)

(** Up to the [await], when there is one; [connected] is
    [tonConnectUI.connected]. *)
Definition handleDisconnect (r : Render) (connected : bool) : Handler :=
  if negb (isManual (props r)) && connected
  then emit tonConnectUI_disconnect
  else emit onDisconnect.

(** [tonConnectUI.disconnect()] resolved: line 108. *)
Definition handleDisconnect_resolved : Handler := emit onDisconnect.

(** *** The polling effect, lines 30-43 *)

(** The dependency array [[address, isTestnet, showWithdrawModal]]. *)
Definition Deps : Type := string * bool * bool.

Definition depsOf (r : Render) : Deps :=
  (address (props r), isTestnet (props r), showWithdrawModal (seen r)).

Definition deps_eqb (d1 d2 : Deps) : bool :=
  let '(a1, t1, m1) := d1 in
  let '(a2, t2, m2) := d2 in
  (a1 =? a2)%string && Bool.eqb t1 t2 && Bool.eqb m1 m2.

(** The callback given to [setInterval], lines 34-39; both [showWithdrawModal]
    and [loadBalance] are those of the render [r] whose effect armed it. *)
Definition interval_callback (r : Render) : Handler :=
  if negb (showWithdrawModal (seen r)) then loadBalance r else ret tt.

(** The body of the effect for render [r]: lines 31-39. *)
Definition effect_body (r : Render) : Handler :=
  loadBalance r ;;
  emit (setInterval r 30000).

(** The cleanup the previous run returned: line 42. *)
Definition effect_cleanup : Handler := emit clearInterval.

(** *** The mounted component as a transition system *)

(** Live props and state, the dependency values of the last run of the effect
    and the render whose interval callback is armed. *)
Record Component := mkComponent {
  live_props : Props;
  live : State;
  deps : Deps;
  interval : Render
}.

Definition currentRender (c : Component) : Render :=
  mkRender (live_props c) (live c).

(** First render with the initial state, then the effect. *)
Definition mount (p : Props) : Component * list Effect :=
  let r := mkRender p initialState in
  let '(_, s, out) := effect_body r initialState in
  (mkComponent p s (depsOf r) r, out).

(** What can happen to a mounted component.  A resumed [handleWithdraw] and a
    fired timeout name the render whose closure runs. *)
Inductive Event :=
| Tick
| BalanceResolved (balanceData : WalletBalance)
| BalanceRejected
| ClickRefresh
| ClickWithdraw (now : Z)
| QrResolved (qr : string)
| TransactionResolved (r : Render)
| TransactionRejected
| TimeoutFired (r : Render)
| ClickClose
| ClickBack (connected : bool)
| DisconnectResolved
| PropsChanged (p : Props).

(** Line 174: the withdraw button is rendered for a positive available
    amount only. *)
Definition withdrawOffered (s : State) : bool :=
  match balance s with
  | Some b => 0 <? availableToWithdraw b
  | None => false
  end.

(** The handler an event runs.  While [loading] the component renders the
    spinner alone (lines 111-122), so no button can be clicked; the refresh
    button is disabled while [refreshing] (line 185); the close button
    belongs to the modal (line 202). *)
Definition handler (c : Component) (e : Event) : Handler :=
  let r := currentRender c in
  let s := live c in
  match e with
  | Tick => interval_callback (interval c)
  | BalanceResolved balanceData => loadBalance_resolved balanceData
  | BalanceRejected => loadBalance_rejected
  | ClickRefresh =>
      if loading s || refreshing s then ret tt else loadBalance r
  | ClickWithdraw now =>
      if loading s || negb (withdrawOffered s) then ret tt
      else handleWithdraw r now
  | QrResolved qr => handleWithdraw_qr_resolved qr
  | TransactionResolved r0 => handleWithdraw_sent r0
  | TransactionRejected => handleWithdraw_failed
  | TimeoutFired r0 => loadBalance r0
  | ClickClose =>
      if loading s || negb (showWithdrawModal s) then ret tt
      else setShowWithdrawModal false
  | ClickBack connected =>
      if loading s then ret tt else handleDisconnect r connected
  | DisconnectResolved => handleDisconnect_resolved
  | PropsChanged _ => ret tt
  end.

(** The render that follows a handler: when a dependency changed, the cleanup
    of the previous run and then the effect of the new render. *)
Definition commit (p : Props) (c : Component)
    (done : unit * State * list Effect) : Component * list Effect :=
  let '(_, s, out) := done in
  let r := mkRender p s in
  if deps_eqb (depsOf r) (deps c)
  then (mkComponent p s (deps c) (interval c), out)
  else
    let '(_, s', out') := (effect_cleanup ;; effect_body r) s in
    (mkComponent p s' (depsOf r) r, out ++ out').

Definition step (c : Component) (e : Event) : Component * list Effect :=
  let p := match e with
           | PropsChanged p' => p'
           | _ => live_props c
           end in
  commit p c (handler c e (live c)).

Fixpoint run (c : Component) (es : list Event) : Component * list Effect :=
  match es with
  | [] => (c, [])
  | e :: rest =>
      let '(c1, out1) := step c e in
      let '(c2, out2) := run c1 rest in
      (c2, out1 ++ out2)
  end.

(** Calls of the balance API among the effects. *)
Definition is_fetch (e : Effect) : bool :=
  match e with
  | getWalletBalance _ _ _ => true
  | _ => false
  end.

Definition fetches (out : list Effect) : nat :=
  List.length (filter is_fetch out).

(** Re-polls scheduled among the effects, with their delays. *)
Definition repoll_delays (out : list Effect) : list Z :=
  flat_map (fun e => match e with
                     | setTimeout _ ms => [ms]
                     | _ => []
                     end) out.

(** The effect has run for the current render: the recorded dependency
    values are those of the live props and state, and the armed interval
    callback was created by a render with the same values. *)
Definition effect_current (c : Component) : Prop :=
  deps c = depsOf (currentRender c) /\ depsOf (interval c) = deps c.

(** States the component reaches from its mount. *)
Definition reached (p : Props) (es : list Event) : Component :=
  fst (run (fst (mount p)) es).

End WithImports.

End BalanceDisplay.

(** ** The component AppContent (the application root) *)

Module App.

(** The four [useState] cells, lines 11-14. *)
Record State := mkState {
  manualAddress : option string;
  isManual : bool;
  isValidatingTonConnect : bool;
  tonConnectError : option string
}.

Definition initialState : State := mkState None false false None.

(** What the hooks [useTonAddress], [useTonConnectUI] and [useIsTestnet] give
    a render; [tonAddress] is the empty string when no wallet is connected. *)
Record Hooks := mkHooks {
  tonAddress : string;
  connected : bool;
  isTestnet : bool
}.

Inductive Effect :=
| validateUserAddress (user : string)
| tonConnectUI_disconnect
| console_error (message : string).

Definition Handler := M State Effect unit.

Definition setManualAddress (a : option string) : Handler :=
  modify (fun s => mkState a (isManual s) (isValidatingTonConnect s)
                           (tonConnectError s)).

Definition setIsManual (v : bool) : Handler :=
  modify (fun s => mkState (manualAddress s) v (isValidatingTonConnect s)
                           (tonConnectError s)).

Definition setIsValidatingTonConnect (v : bool) : Handler :=
  modify (fun s => mkState (manualAddress s) (isManual s) v
                           (tonConnectError s)).

Definition setTonConnectError (e : option string) : Handler :=
  modify (fun s => mkState (manualAddress s) (isManual s)
                           (isValidatingTonConnect s) e).

(** Line 17: [tonAddress || manualAddress]. *)
Definition currentAddress (h : Hooks) (s : State) : option string :=
  if truthy (tonAddress h) then Some (tonAddress h) else manualAddress s.

(** Lines 19-23. *)
Definition handleAddressSet (a : string) : Handler :=
  setManualAddress (Some a) ;;
  setIsManual true ;;
  setTonConnectError None.

(** Lines 25-29: the [onDisconnect] given to BalanceDisplay. *)
Definition handleDisconnect : Handler :=
  setManualAddress None ;;
  setIsManual false ;;
  setTonConnectError None.

(** *** Validation of the connected address, lines 32-56 *)

(** The effect, run when [tonAddress] changes, up to the promise. *)
Definition validation_effect (h : Hooks) : Handler :=
  if truthy (tonAddress h) then
    setIsValidatingTonConnect true ;;
    setTonConnectError None ;;
    emit (validateUserAddress (tonAddress h))
  else
    setTonConnectError None.

Definition validation_finally : Handler :=
  setIsValidatingTonConnect false.

(** The promise resolved with [isValid]: lines 38-45, then 50-52. *)
Definition validation_resolved (isValid : bool) : Handler :=
  (if isValid then
     setIsManual false ;;
     setManualAddress None
   else
     setTonConnectError (Some "В этом кошельке нет депозитов")) ;;
  validation_finally.

(** The promise rejected: lines 46-49, then 50-52. *)
Definition validation_rejected : Handler :=
  emit (console_error "Не удалось подтвердить адрес:") ;;
  setTonConnectError (Some "Не удалось подтвердить подлинность кошелька") ;;
  validation_finally.

(** *** What AppContent renders, lines 58-113 *)

(** The four screens.  [WalletNotFound] is the screen of lines 73-98, headed
    "Кошелек не найден", showing [message], asking the user to disconnect and
    use another wallet, with the single button Back. *)
Inductive View :=
| CheckingWallet
| WalletNotFound (message : string)
| WalletConnector (testnet : bool)
| Balance (p : BalanceDisplay.Props).

(** Lines 100-113. *)
Definition mainView (h : Hooks) (s : State) : View :=
  match currentAddress h s with
  | Some a =>
      if truthy a
      then Balance (BalanceDisplay.mkProps a (isManual s) (isTestnet h))
      else WalletConnector (isTestnet h)
  | None => WalletConnector (isTestnet h)
  end.

(** Line 73: the value of [tonAddress && tonConnectError], when truthy. *)
Definition errorShown (h : Hooks) (s : State) : option string :=
  if truthy (tonAddress h) then
    match tonConnectError s with
    | Some message => if truthy message then Some message else None
    | None => None
    end
  else None.

Definition render (h : Hooks) (s : State) : View :=
  if isValidatingTonConnect s then CheckingWallet
  else
    match errorShown h s with
    | Some message => WalletNotFound message
    | None => mainView h s
    end.

(** The screen alone, without what it displays. *)
Inductive Route :=
| RouteChecking
| RouteNotFound
| RouteConnector
| RouteBalance.

Definition route (v : View) : Route :=
  match v with
  | CheckingWallet => RouteChecking
  | WalletNotFound _ => RouteNotFound
  | WalletConnector _ => RouteConnector
  | Balance _ => RouteBalance
  end.

(** The button Back of the screen [WalletNotFound], lines 84-89. *)
Definition notFound_back (h : Hooks) : Handler :=
  (if connected h then emit tonConnectUI_disconnect else ret tt) ;;
  setTonConnectError None.

(** Calls of the validation service among the effects. *)
Definition validations (out : list Effect) : nat :=
  List.length (filter (fun e => match e with
                                | validateUserAddress _ => true
                                | _ => false
                                end) out).

(** The reading of "surfaced distinctly": once the validation of the
    connected address has failed, the user is on another screen than after
    the answer [false]. *)
Definition routed_apart (h : Hooks) (s : State) : Prop :=
  route (render h (exec validation_rejected s))
  <> route (render h (exec (validation_resolved false) s)).

End App.

(** ** Sample values, used where a statement is tried on an input *)

#[local] Instance sample_imports : Imports :=
  mkImports
    (mkLockerAddresses "0:locker-on-mainnet" "0:locker-on-testnet")
    1000000000
    (fun a t => ((if t then "kQ/" else "EQ/") ++ a)%string)
    (fun a t => ("ton://transfer/" ++ (if t then "kQ/" else "EQ/") ++ a
                 ++ "?amount=1000000000&text=w")%string)
    (fun c => match c with
              | mkCell bits _ =>
                  string_of_list_ascii
                    (map (fun b : bool => if b then "1" else "0")%char bits)
              end).

Definition sample_balance : WalletBalance :=
  mkWalletBalance 2500000000 7500000000 10000000000 10200000000.

Definition sample_manual : BalanceDisplay.Props :=
  BalanceDisplay.mkProps "0:user" true false.

Definition sample_connected : BalanceDisplay.Props :=
  BalanceDisplay.mkProps "0:user" false true.

(** Nothing left to withdraw. *)
Definition sample_locked_balance : WalletBalance :=
  mkWalletBalance 0 10000000000 10000000000 10200000000.

(** The state once a first load has returned [b]. *)
Definition sample_loaded (b : WalletBalance) : BalanceDisplay.State :=
  BalanceDisplay.mkState (Some b) false false None false "".

(** A wallet connected through the SDK, on mainnet. *)
Definition sample_hooks : App.Hooks := App.mkHooks "0:user" true false.

(** AppContent while the validation of that wallet is pending. *)
Definition sample_validating : App.State :=
  exec (App.validation_effect sample_hooks) App.initialState.

(** ** Timers among the effects of BalanceDisplay *)

Definition intervals_armed (out : list BalanceDisplay.Effect) : nat :=
  List.length
    (filter (fun e => match e with
                      | BalanceDisplay.setInterval _ _ => true
                      | _ => false
                      end) out).

Definition intervals_cleared (out : list BalanceDisplay.Effect) : nat :=
  List.length
    (filter (fun e => match e with
                      | BalanceDisplay.clearInterval => true
                      | _ => false
                      end) out).

(** The manual-mode component once its first load has returned
    [sample_balance]. *)
Definition sample_component : BalanceDisplay.Component :=
  BalanceDisplay.reached sample_manual
                         [BalanceDisplay.BalanceResolved sample_balance].

(** The interval calls alone, in the order they are made. *)
Inductive TimerOp :=
| Arm (ms : Z)
| Clear.

Definition timer_ops (out : list BalanceDisplay.Effect) : list TimerOp :=
  flat_map (fun e => match e with
                     | BalanceDisplay.setInterval _ ms => [Arm ms]
                     | BalanceDisplay.clearInterval => [Clear]
                     | _ => []
                     end) out.

(** Reading the interval calls from left to right, [armed] telling whether
    an interval is armed so far: an interval is armed only when none is, with
    a period of 30000 ms; one is cleared only when one is armed; and at the
    end one is armed. *)
Fixpoint one_at_a_time (armed : bool) (ops : list TimerOp) : bool :=
  match ops with
  | [] => armed
  | Arm ms :: rest => negb armed && (ms =? 30000) && one_at_a_time true rest
  | Clear :: rest => armed && one_at_a_time false rest
  end.


(** * Properties *)

Section MonadFacts.
Context {S E : Type}.

Lemma exec_bind {A B} (m : M S E A) (k : A -> M S E B) (s : S) :
  exec (bind m k) s = exec (k (fst (fst (m s)))) (exec m s).
Proof.
  unfold exec, bind.
  destruct (m s) as [[a s1] out1]; simpl.
  destruct (k a s1) as [[b s2] out2]; reflexivity.
Qed.

Lemma output_bind {A B} (m : M S E A) (k : A -> M S E B) (s : S) :
  output (bind m k) s
  = output m s ++ output (k (fst (fst (m s)))) (exec m s).
Proof.
  unfold output, exec, bind.
  destruct (m s) as [[a s1] out1]; simpl.
  destruct (k a s1) as [[b s2] out2]; reflexivity.
Qed.

Lemma run_handler (m : M S E unit) (s : S) :
  m s = (tt, exec m s, output m s).
Proof.
  unfold exec, output.
  destruct (m s) as [[[] s1] out1]; reflexivity.
Qed.

End MonadFacts.

Section PollingFacts.
Context `{Imports}.
Import BalanceDisplay.

Lemma deps_eqb_eq (d1 d2 : Deps) : deps_eqb d1 d2 = true <-> d1 = d2.
Proof.
  destruct d1 as [[a1 t1] m1], d2 as [[a2 t2] m2]; simpl.
  rewrite !andb_true_iff, String.eqb_eq, !Bool.eqb_true_iff.
  split.
  - intros [[-> ->] ->]; reflexivity.
  - intros [= -> -> ->]; auto.
Qed.

Lemma deps_eqb_refl (d : Deps) : deps_eqb d d = true.
Proof. apply deps_eqb_eq; reflexivity. Qed.

(** [loadBalance], up to its [await], writes [loading] or [refreshing] and
    [error], nothing else. *)
Lemma loadBalance_state (r : Render) (s : State) :
  exec (loadBalance r) s
  = match balance (seen r) with
    | None =>
        mkState (balance s) true (refreshing s) None
                (showWithdrawModal s) (qrCode s)
    | Some _ =>
        mkState (balance s) (loading s) true None
                (showWithdrawModal s) (qrCode s)
    end.
Proof.
  unfold loadBalance.
  destruct (balance (seen r)); reflexivity.
Qed.

Lemma loadBalance_output (r : Render) (s : State) :
  output (loadBalance r) s
  = [getWalletBalance (isTestnet (props r)) (lockerAddress r)
                      (address (props r))].
Proof.
  unfold loadBalance.
  destruct (balance (seen r)); reflexivity.
Qed.

Lemma loadBalance_keeps_modal (r : Render) (s : State) :
  showWithdrawModal (exec (loadBalance r) s) = showWithdrawModal s.
Proof.
  rewrite loadBalance_state.
  destruct (balance (seen r)); reflexivity.
Qed.

Lemma effect_run_state (r : Render) (s : State) :
  exec (effect_cleanup ;; effect_body r) s = exec (loadBalance r) s.
Proof.
  unfold effect_cleanup, effect_body.
  rewrite !exec_bind; reflexivity.
Qed.

Lemma effect_run_output (r : Render) (s : State) :
  output (effect_cleanup ;; effect_body r) s
  = [clearInterval;
     getWalletBalance (isTestnet (props r)) (lockerAddress r)
                      (address (props r));
     setInterval r 30000].
Proof.
  unfold effect_cleanup, effect_body.
  rewrite !output_bind, loadBalance_output; reflexivity.
Qed.

(** What [commit] yields, by cases on the dependency test. *)
Lemma commit_same (p : Props) (c : Component) (m : Handler) (s : State) :
  depsOf (mkRender p (exec m s)) = deps c ->
  commit p c (m s)
  = (mkComponent p (exec m s) (deps c) (interval c), output m s).
Proof.
  intros Hd.
  rewrite (run_handler m s); unfold commit.
  rewrite Hd, deps_eqb_refl; reflexivity.
Qed.

Lemma commit_changed (p : Props) (c : Component) (m : Handler) (s : State) :
  depsOf (mkRender p (exec m s)) <> deps c ->
  commit p c (m s)
  = (let r := mkRender p (exec m s) in
     (mkComponent p (exec (loadBalance r) (exec m s)) (depsOf r) r,
      output m s ++
      [clearInterval;
       getWalletBalance (isTestnet p) (lockerAddress r) (address p);
       setInterval r 30000])).
Proof.
  intros Hd.
  rewrite (run_handler m s); unfold commit.
  destruct (deps_eqb _ (deps c)) eqn:E.
  - apply deps_eqb_eq in E; contradiction.
  - rewrite (run_handler (effect_cleanup ;; effect_body _) _).
    rewrite effect_run_state, effect_run_output; reflexivity.
Qed.

Lemma commit_effect_current (p : Props) (c : Component) (m : Handler)
    (s : State) :
  depsOf (interval c) = deps c ->
  effect_current (fst (commit p c (m s))).
Proof.
  intros Hi.
  destruct (deps_eqb (depsOf (mkRender p (exec m s))) (deps c)) eqn:E.
  - apply deps_eqb_eq in E.
    rewrite commit_same by exact E.
    split; simpl; [symmetry; exact E | exact Hi].
  - assert (Hd : depsOf (mkRender p (exec m s)) <> deps c).
    { intros Hd; apply deps_eqb_eq in Hd; congruence. }
    rewrite commit_changed by exact Hd.
    split; simpl; [| reflexivity].
    unfold depsOf, currentRender; simpl.
    rewrite loadBalance_keeps_modal; reflexivity.
Qed.

Lemma mount_effect_current (p : Props) : effect_current (fst (mount p)).
Proof. split; reflexivity. Qed.

Lemma step_effect_current (c : Component) (e : Event) :
  effect_current c -> effect_current (fst (step c e)).
Proof.
  intros [_ Hi]; unfold step.
  apply commit_effect_current; exact Hi.
Qed.

Lemma run_effect_current (es : list Event) :
  forall c, effect_current c -> effect_current (fst (run c es)).
Proof.
  induction es as [| e rest IH]; intros c Hc; simpl.
  - exact Hc.
  - destruct (step c e) as [c1 out1] eqn:E1.
    specialize (IH c1).
    destruct (run c1 rest) as [c2 out2]; simpl in *.
    apply IH.
    change c1 with (fst (c1, out1)); rewrite <- E1.
    apply step_effect_current; exact Hc.
Qed.

Lemma reached_effect_current (p : Props) (es : list Event) :
  effect_current (reached p es).
Proof. apply run_effect_current, mount_effect_current. Qed.

(** While the dialog is open the interval callback does nothing: a tick
    leaves the component as it is and calls nothing. *)
Lemma tick_skipped_while_dialog_open (c : Component) :
  effect_current c ->
  showWithdrawModal (live c) = true ->
  step c Tick = (c, []).
Proof.
  intros [Hd Hi] Hopen.
  assert (Hcap : showWithdrawModal (seen (interval c)) = true).
  { rewrite <- Hopen.
    assert (Hs : snd (depsOf (interval c)) = snd (depsOf (currentRender c)))
      by congruence.
    exact Hs. }
  unfold step, handler, interval_callback.
  rewrite Hcap; cbn [negb].
  rewrite commit_same.
  - destruct c; reflexivity.
  - symmetry; exact Hd.
Qed.

End PollingFacts.

Section PollerClaims.
Context `{Imports}.
Import BalanceDisplay.

(** Opening the dialog changes a dependency of the polling effect: the effect
    runs again and calls the balance API at once, with the dialog open. *)
Lemma opening_dialog_fetches (c : Component) (qr : string) :
  effect_current c ->
  showWithdrawModal (live c) = false ->
  showWithdrawModal (live (fst (step c (QrResolved qr)))) = true /\
  fetches (snd (step c (QrResolved qr))) = 1%nat.
Proof.
  intros [Hd _] Hclosed.
  unfold step, handler.
  rewrite commit_changed.
  - split; [simpl; apply loadBalance_keeps_modal | reflexivity].
  - rewrite Hd; unfold depsOf, currentRender; simpl.
    rewrite Hclosed; intros [=].
Qed.

(** Closing it does the same. *)
Lemma closing_dialog_fetches (c : Component) :
  effect_current c ->
  loading (live c) = false ->
  showWithdrawModal (live c) = true ->
  showWithdrawModal (live (fst (step c ClickClose))) = false /\
  fetches (snd (step c ClickClose)) = 1%nat.
Proof.
  intros [Hd _] Hl Hopen.
  unfold step, handler.
  rewrite Hl, Hopen; cbn [orb negb].
  rewrite commit_changed.
  - split; [simpl; apply loadBalance_keeps_modal | reflexivity].
  - rewrite Hd; unfold depsOf, currentRender; simpl.
    rewrite Hopen; intros [=].
Qed.

(** C1 (the code departs from the claim).  A manual-mode user with a positive
    available amount asks to withdraw.  When the QR image arrives the dialog
    opens and the polling effect, which depends on [showWithdrawModal], runs
    again: it calls the balance API immediately, with the dialog open.  The
    30-second ticks that follow are skipped, as claimed.  Closing the dialog
    runs the effect once more, with another immediate call of the balance
    API: the change of visibility itself fetches, both ways. *)
Theorem C1_dialog_toggle_fetches :
  let asked :=
    reached sample_manual
            [BalanceResolved sample_balance; ClickWithdraw 1700000000000] in
  let opened := step asked (QrResolved "data:image/png;base64,QR") in
  let viewing := fst (step (fst opened) (BalanceResolved sample_balance)) in
  let closed := step viewing ClickClose in
  showWithdrawModal (live asked) = false /\
  showWithdrawModal (live (fst opened)) = true /\
  fetches (snd opened) = 1%nat /\
  step viewing Tick = (viewing, []) /\
  showWithdrawModal (live (fst closed)) = false /\
  snd closed
  = [clearInterval;
     getWalletBalance false (mainnet LOCKER_ADDRESSES) "0:user";
     setInterval (mkRender sample_manual
                    (mkState (Some sample_balance) false false None false
                             "data:image/png;base64,QR"))
                 30000].
Proof.
  cbv zeta.
  repeat split; reflexivity.
Qed.

(** The mount: the first render sees the initial state and arms the
    interval with its own closure. *)
Lemma mount_first_render (p : Props) :
  mount p
  = (mkComponent p initialState (depsOf (mkRender p initialState))
                 (mkRender p initialState),
     [getWalletBalance (isTestnet p)
                       (lockerAddress (mkRender p initialState))
                       (address p);
      setInterval (mkRender p initialState) 30000]).
Proof. reflexivity. Qed.

(** The component once its first load has returned [b]: the armed interval
    callback is still the one of the first render. *)
Lemma first_load (p : Props) (b : WalletBalance) :
  reached p [BalanceResolved b]
  = mkComponent p (mkState (Some b) false false None false "")
                (depsOf (mkRender p initialState))
                (mkRender p initialState).
Proof.
  unfold reached; rewrite mount_first_render.
  cbn [run fst].
  unfold step, handler.
  rewrite commit_same by reflexivity.
  reflexivity.
Qed.

(** C7 (the code departs from the claim).  After the first load has returned
    balance [b], the 30-second tick runs the [loadBalance] of the first
    render, whose [balance] is still [null]: the component enters the full
    loading state, not the refreshing one, although a balance is held; it
    calls the balance API once. *)
Theorem C7_tick_after_first_load_is_full_loading
    (p : Props) (b : WalletBalance) :
  let loaded := reached p [BalanceResolved b] in
  let ticked := step loaded Tick in
  balance (live loaded) = Some b /\
  loading (live loaded) = false /\
  balance (live (fst ticked)) = Some b /\
  loading (live (fst ticked)) = true /\
  refreshing (live (fst ticked)) = false /\
  snd ticked
  = [getWalletBalance (isTestnet p)
                      (lockerAddress (mkRender p initialState))
                      (address p)].
Proof.
  cbv zeta.
  rewrite first_load.
  unfold step, handler, interval_callback.
  cbn [interval seen showWithdrawModal initialState negb live live_props].
  rewrite commit_same by reflexivity.
  repeat split; reflexivity.
Qed.

End PollerClaims.

Section LoadBalanceClaims.
Context `{Imports}.
Import BalanceDisplay.




Lemma loadBalance_clears_error (r : Render) (s : State) :
  error (exec (loadBalance r) s) = None.
Proof.
  rewrite loadBalance_state.
  destruct (balance (seen r)); reflexivity.
Qed.

Lemma handleWithdraw_no_fetch (r : Render) (now : Z) (s : State) :
  fetches (output (handleWithdraw r now) s) = 0%nat.
Proof.
  unfold handleWithdraw.
  destruct (balance (seen r)) as [b |]; [| reflexivity].
  destruct (availableToWithdraw b =? 0); [reflexivity |].
  destruct (isManual (props r)); reflexivity.
Qed.

Lemma handleDisconnect_no_fetch (r : Render) (connected : bool) (s : State) :
  fetches (output (handleDisconnect r connected) s) = 0%nat.
Proof.
  unfold handleDisconnect.
  destruct (negb (isManual (props r)) && connected); reflexivity.
Qed.

Lemma handler_fetch_clears_error (c : Component) (e : Event) :
  fetches (output (handler c e) (live c)) <> 0%nat ->
  error (exec (handler c e) (live c)) = None.
Proof.
  unfold handler, interval_callback.
  destruct e;
    repeat match goal with
           | |- context [if ?x then _ else _] => destruct x
           end;
    try (intros Hn; exfalso; apply Hn; reflexivity);
    try (intros _; apply loadBalance_clears_error).
  - intros Hn; exfalso; apply Hn, handleWithdraw_no_fetch.
  - intros Hn; exfalso; apply Hn, handleDisconnect_no_fetch.
Qed.

(** Every step of the mounted component that calls the balance API, for
    whatever reason (tick, manual refresh, re-poll after a transaction, a run
    of the effect), ends in a state whose [error] is null. *)
Lemma fetching_step_clears_error (c : Component) (e : Event) :
  fetches (snd (step c e)) <> 0%nat ->
  error (live (fst (step c e))) = None.
Proof.
  unfold step.
  set (p := match e with PropsChanged p' => p' | _ => live_props c end).
  destruct (deps_eqb (depsOf (mkRender p (exec (handler c e) (live c))))
                     (deps c)) eqn:E.
  - apply deps_eqb_eq in E.
    rewrite commit_same by exact E; simpl.
    apply handler_fetch_clears_error.
  - assert (Hd : depsOf (mkRender p (exec (handler c e) (live c))) <> deps c).
    { intros Hd; apply deps_eqb_eq in Hd; congruence. }
    rewrite commit_changed by exact Hd; simpl.
    intros _; apply loadBalance_clears_error.
Qed.

End LoadBalanceClaims.

Section WithdrawalClaims.
Context `{Imports}.
Import BalanceDisplay.

(** The payload cell: thirty-two zero bits, then the byte of "w" (0x77). *)
Lemma withdrawBody_cell :
  withdrawBody
  = Some (mkCell (repeat false 32
                  ++ [false; true; true; true; false; true; true; true]) []).
Proof. reflexivity. Qed.

(** What [handleWithdraw] does once its guard is passed. *)
Lemma handleWithdraw_passed (r : Render) (now : Z) (s : State)
    (b : WalletBalance) :
  balance (seen r) = Some b ->
  availableToWithdraw b <> 0 ->
  handleWithdraw r now s
  = (tt, s,
     [if isManual (props r)
      then QRCode_toDataURL
             (generateWithdrawDeepLink (lockerAddress r) (isTestnet (props r)))
      else sendTransaction
             (mkRequest
                [mkMessage (formattedLockerAddress r)
                           (bigint_toString WITHDRAW_AMOUNT)
                           (boc_base64
                              (mkCell (repeat false 32
                                       ++ [false; true; true; true;
                                           false; true; true; true]) []))]
                (now + 300000))]).
Proof.
  intros Hb Hpos.
  unfold handleWithdraw; rewrite Hb.
  apply Z.eqb_neq in Hpos; rewrite Hpos.
  destruct (isManual (props r)); reflexivity.
Qed.

(** C3.  When the render that handles the click holds no balance, or one
    whose [availableToWithdraw] is 0, [handleWithdraw] returns at once: the
    state is unchanged and nothing is called (no fetch, no SDK call, no QR
    encoding, no timer). *)
Theorem C3_withdraw_guard_noop (r : Render) (now : Z) (s : State) :
  (balance (seen r) = None \/
   exists b, balance (seen r) = Some b /\ availableToWithdraw b = 0) ->
  handleWithdraw r now s = (tt, s, []).
Proof.
  intros [Hnone | [b [Hb Hzero]]]; unfold handleWithdraw.
  - rewrite Hnone; reflexivity.
  - rewrite Hb, Hzero; reflexivity.
Qed.

(** C4.  Connected mode, guard passed: the call issues one [sendTransaction]
    and nothing else.  When it resolves, the continuation schedules exactly
    one timeout, of 5000 ms, whose callback is [loadBalance] (one call of the
    balance API), and changes no state.  When it rejects, the continuation
    schedules no timeout and sends nothing again; it sets the message
    "Transaction failed. Please try again." and leaves every other cell,
    the dialog flag among them, as it was. *)
Theorem C4_connected_repoll (r : Render) (now : Z) (s s' : State)
    (b : WalletBalance) :
  isManual (props r) = false ->
  balance (seen r) = Some b ->
  availableToWithdraw b <> 0 ->
  (exists request,
      handleWithdraw r now s = (tt, s, [sendTransaction request])) /\
  (handleWithdraw_sent r s' = (tt, s', [setTimeout r 5000]) /\
   repoll_delays (output (handleWithdraw_sent r) s') = [5000] /\
   fetches (output (handler (mkComponent (props r) s' (depsOf r) r)
                            (TimeoutFired r)) s') = 1%nat) /\
  (repoll_delays (output handleWithdraw_failed s') = [] /\
   output handleWithdraw_failed s' = [console_error "Transaction failed:"] /\
   exec handleWithdraw_failed s'
   = mkState (balance s') (loading s') (refreshing s')
             (Some "Transaction failed. Please try again.")
             (showWithdrawModal s') (qrCode s')).
Proof.
  intros Hmode Hb Hpos.
  split; [| split].
  - eexists.
    rewrite (handleWithdraw_passed r now s b Hb Hpos), Hmode.
    reflexivity.
  - repeat split.
    simpl; rewrite loadBalance_output; reflexivity.
  - repeat split.
Qed.

(** C5.  Connected mode, guard passed: the request carries a single message;
    its payload is the serialised cell holding 32 zero bits followed by the
    byte of "w", its amount is [WITHDRAW_AMOUNT] in decimal, its address is
    [formatContractAddress] of the locker address of the network; the
    request is valid until [now + 300000] ms, five minutes after the time
    read. *)
Theorem C5_connected_message (r : Render) (now : Z) (s : State)
    (b : WalletBalance) :
  isManual (props r) = false ->
  balance (seen r) = Some b ->
  availableToWithdraw b <> 0 ->
  output (handleWithdraw r now) s
  = [sendTransaction
       (mkRequest
          [mkMessage
             (formatContractAddress (lockerAddress r) (isTestnet (props r)))
             (bigint_toString WITHDRAW_AMOUNT)
             (boc_base64
                (endCell
                   (mkBuilder (uint_bits 0 32 ++ string_bits "w") [])))]
          (now + 5 * 60 * 1000))].
Proof.
  intros Hmode Hb Hpos.
  unfold output.
  rewrite (handleWithdraw_passed r now s b Hb Hpos), Hmode.
  reflexivity.
Qed.

(** C6.  Guard passed, either path: the locker address is taken from
    [LOCKER_ADDRESSES] by the [isTestnet] prop, and the same flag is handed
    to the helper that encodes it: [generateWithdrawDeepLink] for the QR of
    the manual path, [formatContractAddress] for the message of the connected
    path. *)
Theorem C6_locker_address_by_network (r : Render) (now : Z) (s : State)
    (b : WalletBalance) :
  balance (seen r) = Some b ->
  availableToWithdraw b <> 0 ->
  let locker := if isTestnet (props r)
                then testnet LOCKER_ADDRESSES
                else mainnet LOCKER_ADDRESSES in
  (isManual (props r) = true ->
   output (handleWithdraw r now) s
   = [QRCode_toDataURL
        (generateWithdrawDeepLink locker (isTestnet (props r)))]) /\
  (isManual (props r) = false ->
   exists amount payload expiry,
     output (handleWithdraw r now) s
     = [sendTransaction
          (mkRequest
             [mkMessage (formatContractAddress locker (isTestnet (props r)))
                        amount payload]
             expiry)]).
Proof.
  intros Hb Hpos locker.
  unfold output.
  rewrite (handleWithdraw_passed r now s b Hb Hpos).
  split; intros Hmode; rewrite Hmode; simpl.
  - reflexivity.
  - do 3 eexists; reflexivity.
Qed.

(** C9.  In connected mode with the SDK connected, [handleDisconnect] first
    calls [tonConnectUI.disconnect()] and calls the parent's [onDisconnect]
    only when that has resolved; in manual mode (and in connected mode with
    the SDK not connected) it calls [onDisconnect] alone.  It writes no cell
    of its own; the parent's callback clears the manual address, the manual
    flag and the error. *)
Theorem C9_disconnect (a : string) (t connected : bool) (seen0 s : State)
    (parent : App.State) :
  let connected_mode := mkRender (mkProps a false t) seen0 in
  let manual_mode := mkRender (mkProps a true t) seen0 in
  handleDisconnect connected_mode true s = (tt, s, [tonConnectUI_disconnect]) /\
  handleDisconnect_resolved s = (tt, s, [onDisconnect]) /\
  handleDisconnect connected_mode false s = (tt, s, [onDisconnect]) /\
  handleDisconnect manual_mode connected s = (tt, s, [onDisconnect]) /\
  App.handleDisconnect parent
  = (tt,
     App.mkState None false (App.isValidatingTonConnect parent) None,
     []).
Proof.
  cbv zeta.
  repeat split; reflexivity.
Qed.

End WithdrawalClaims.

Section ValidationClaims.
Import App.

(** C8, as stated, fails: for a connected wallet whose validation is pending,
    a failure of the validation call and the answer [false] lead to the same
    screen, "wallet not found". *)
Lemma C8_outcomes_not_routed_apart :
  ~ routed_apart sample_hooks sample_validating.
Proof.
  unfold routed_apart.
  intros Hapart; apply Hapart.
  reflexivity.
Qed.

(** C8, amended.  For a connected address, a failure of the validation call
    and the answer [false] both end the validation and show the one screen
    "wallet not found", each with its own message; neither calls the
    validation service again; the only control of that screen, Back,
    disconnects the wallet session when the SDK reports one and clears the
    error. *)
Theorem C8_validation_outcomes_share_screen (h : Hooks) (s s' : State) :
  truthy (tonAddress h) = true ->
  render h (exec validation_rejected s)
  = WalletNotFound "Не удалось подтвердить подлинность кошелька" /\
  render h (exec (validation_resolved false) s)
  = WalletNotFound "В этом кошельке нет депозитов" /\
  validations (output validation_rejected s) = 0%nat /\
  validations (output (validation_resolved false) s) = 0%nat /\
  notFound_back h s'
  = (tt,
     mkState (manualAddress s') (isManual s') (isValidatingTonConnect s') None,
     if connected h then [tonConnectUI_disconnect] else []).
Proof.
  intros Haddr.
  unfold render, errorShown; simpl.
  rewrite Haddr; simpl.
  repeat split.
  unfold notFound_back.
  destruct (connected h); reflexivity.
Qed.

End ValidationClaims.

(** * The statements with a hypothesis, each tried on an input *)

Lemma C3_withdraw_guard_noop_witness :
  (BalanceDisplay.balance
     (BalanceDisplay.seen
        (BalanceDisplay.mkRender sample_manual
                                 (sample_loaded sample_locked_balance)))
   = Some sample_locked_balance /\
   availableToWithdraw sample_locked_balance = 0) /\
  BalanceDisplay.handleWithdraw
    (BalanceDisplay.mkRender sample_manual
                             (sample_loaded sample_locked_balance))
    1700000000000 (sample_loaded sample_locked_balance)
  = (tt, sample_loaded sample_locked_balance, []).
Proof.
  split.
  - split; reflexivity.
  - apply C3_withdraw_guard_noop.
    right; exists sample_locked_balance; split; reflexivity.
Defined.

Lemma C4_connected_repoll_witness :
  exists request,
    BalanceDisplay.handleWithdraw
      (BalanceDisplay.mkRender sample_connected (sample_loaded sample_balance))
      1700000000000 (sample_loaded sample_balance)
    = (tt, sample_loaded sample_balance,
       [BalanceDisplay.sendTransaction request]).
Proof.
  apply (C4_connected_repoll
           (BalanceDisplay.mkRender sample_connected
                                    (sample_loaded sample_balance))
           1700000000000 (sample_loaded sample_balance)
           (sample_loaded sample_balance) sample_balance).
  - reflexivity.
  - reflexivity.
  - discriminate.
Defined.

Lemma C5_connected_message_witness :
  output (BalanceDisplay.handleWithdraw
            (BalanceDisplay.mkRender sample_connected
                                     (sample_loaded sample_balance))
            1700000000000)
         (sample_loaded sample_balance)
  = [BalanceDisplay.sendTransaction
       (BalanceDisplay.mkRequest
          [BalanceDisplay.mkMessage
             "kQ/0:locker-on-testnet" "1000000000"
             "0000000000000000000000000000000001110111"]
          1700000300000)].
Proof.
  refine (C5_connected_message
            (BalanceDisplay.mkRender sample_connected
                                     (sample_loaded sample_balance))
            1700000000000 (sample_loaded sample_balance) sample_balance
            _ _ _).
  - reflexivity.
  - reflexivity.
  - discriminate.
Defined.

Lemma C6_locker_address_by_network_witness :
  output (BalanceDisplay.handleWithdraw
            (BalanceDisplay.mkRender sample_manual
                                     (sample_loaded sample_balance))
            1700000000000)
         (sample_loaded sample_balance)
  = [BalanceDisplay.QRCode_toDataURL
       "ton://transfer/EQ/0:locker-on-mainnet?amount=1000000000&text=w"].
Proof.
  refine (proj1 (C6_locker_address_by_network
                   (BalanceDisplay.mkRender sample_manual
                                            (sample_loaded sample_balance))
                   1700000000000 (sample_loaded sample_balance)
                   sample_balance _ _) _).
  - reflexivity.
  - discriminate.
  - reflexivity.
Defined.

Lemma C8_validation_outcomes_share_screen_witness :
  truthy (App.tonAddress sample_hooks) = true /\
  App.render sample_hooks (exec App.validation_rejected sample_validating)
  = App.WalletNotFound "Не удалось подтвердить подлинность кошелька".
Proof.
  split.
  - reflexivity.
  - apply (C8_validation_outcomes_share_screen
             sample_hooks sample_validating sample_validating).
    reflexivity.
Defined.

(** * Further properties of the mounted BalanceDisplay *)

Section ComponentFacts.
Context `{Imports}.
Import BalanceDisplay.

(** [handleWithdraw], up to its [await], writes no cell. *)
Lemma handleWithdraw_keeps_state (r : Render) (now : Z) (s : State) :
  exec (handleWithdraw r now) s = s.
Proof.
  unfold handleWithdraw.
  destruct (balance (seen r)) as [b |]; [| reflexivity].
  destruct (availableToWithdraw b =? 0); [reflexivity |].
  destruct (isManual (props r)); reflexivity.
Qed.

Lemma handleDisconnect_keeps_state (r : Render) (connected : bool)
    (s : State) :
  exec (handleDisconnect r connected) s = s.
Proof.
  unfold handleDisconnect.
  destruct (negb (isManual (props r)) && connected); reflexivity.
Qed.

Lemma loadBalance_keeps_balance (r : Render) (s : State) :
  balance (exec (loadBalance r) s) = balance s.
Proof.
  rewrite loadBalance_state.
  destruct (balance (seen r)); reflexivity.
Qed.

(** The balance a handler leaves. *)
Lemma handler_balance (c : Component) (e : Event) :
  balance (exec (handler c e) (live c))
  = match e with
    | BalanceResolved b => Some b
    | _ => balance (live c)
    end.
Proof.
  unfold handler, interval_callback.
  destruct e;
    repeat match goal with
           | |- context [if ?x then _ else _] => destruct x
           end;
    try reflexivity;
    try apply loadBalance_keeps_balance.
  - rewrite handleWithdraw_keeps_state; reflexivity.
  - rewrite handleDisconnect_keeps_state; reflexivity.
Qed.

(** The state after the render that follows a handler: the handler's, or the
    handler's then the effect's [loadBalance]. *)
Lemma commit_live (p : Props) (c : Component) (m : Handler) (s : State) :
  live (fst (commit p c (m s))) = exec m s \/
  live (fst (commit p c (m s)))
  = exec (loadBalance (mkRender p (exec m s))) (exec m s).
Proof.
  destruct (deps_eqb (depsOf (mkRender p (exec m s))) (deps c)) eqn:E.
  - left.
    apply deps_eqb_eq in E.
    rewrite commit_same by exact E; reflexivity.
  - right.
    assert (Hd : depsOf (mkRender p (exec m s)) <> deps c).
    { intros Hd; apply deps_eqb_eq in Hd; congruence. }
    rewrite commit_changed by exact Hd; reflexivity.
Qed.

Lemma step_balance (c : Component) (e : Event) :
  balance (live (fst (step c e)))
  = match e with
    | BalanceResolved b => Some b
    | _ => balance (live c)
    end.
Proof.
  unfold step.
  destruct (commit_live
              (match e with PropsChanged p' => p' | _ => live_props c end)
              c (handler c e) (live c)) as [-> | ->].
  - apply handler_balance.
  - rewrite loadBalance_keeps_balance; apply handler_balance.
Qed.

(** X1.  Only the return of a balance fetch changes the balance held: every
    other event (a failed fetch, a tick, a click, the dialog opening or
    closing, a failed or sent transaction, new props, a new address among
    them) leaves it as it was. *)
Theorem X1_balance_changes_only_on_fetch_success (c : Component) (e : Event) :
  (forall b, e <> BalanceResolved b) ->
  balance (live (fst (step c e))) = balance (live c).
Proof.
  intros Hother.
  rewrite step_balance.
  destruct e; try reflexivity.
  exfalso; eapply Hother; reflexivity.
Qed.

(** X2.  Once a balance is held it is never cleared: after any sequence of
    events the component still holds one. *)
Theorem X2_balance_never_cleared (es : list Event) :
  forall c : Component,
    balance (live c) <> None ->
    balance (live (fst (run c es))) <> None.
Proof.
  induction es as [| e rest IH]; intros c Hheld; simpl.
  - exact Hheld.
  - destruct (step c e) as [c1 out1] eqn:E1.
    specialize (IH c1).
    destruct (run c1 rest) as [c2 out2]; simpl in *.
    apply IH.
    change c1 with (fst (c1, out1)); rewrite <- E1.
    rewrite step_balance.
    destruct e; try exact Hheld.
    discriminate.
Qed.

(** X3.  In every state the component reaches from its mount, a tick calls
    the balance API exactly when the dialog is closed, and then for the live
    address and network, never for those of an earlier render. *)
Theorem X3_tick_fetches_live_address_unless_dialog_open
    (p : Props) (es : list Event) :
  let c := reached p es in
  snd (step c Tick)
  = if showWithdrawModal (live c) then []
    else [getWalletBalance (isTestnet (live_props c))
                           (lockerAddress (currentRender c))
                           (address (live_props c))].
Proof.
  cbv zeta.
  pose proof (reached_effect_current p es) as Hcur.
  set (c := reached p es) in *.
  destruct (showWithdrawModal (live c)) eqn:Hopen.
  - rewrite tick_skipped_while_dialog_open by assumption; reflexivity.
  - destruct Hcur as [Hd Hi].
    assert (Hsame : depsOf (interval c) = depsOf (currentRender c))
      by congruence.
    unfold depsOf in Hsame; simpl in Hsame.
    injection Hsame as Haddr Hnet Hmodal.
    unfold step, handler, interval_callback.
    rewrite Hmodal, Hopen; cbn [negb].
    rewrite commit_same.
    + simpl; rewrite loadBalance_output.
      unfold lockerAddress; simpl.
      rewrite Haddr, Hnet; reflexivity.
    + unfold depsOf; simpl.
      rewrite loadBalance_keeps_modal.
      symmetry; exact Hd.
Qed.

End ComponentFacts.

Section TimerFacts.
Context `{Imports}.
Import BalanceDisplay.

Lemma intervals_armed_app (out1 out2 : list Effect) :
  intervals_armed (out1 ++ out2)
  = (intervals_armed out1 + intervals_armed out2)%nat.
Proof.
  unfold intervals_armed.
  rewrite filter_app, length_app; reflexivity.
Qed.

Lemma intervals_cleared_app (out1 out2 : list Effect) :
  intervals_cleared (out1 ++ out2)
  = (intervals_cleared out1 + intervals_cleared out2)%nat.
Proof.
  unfold intervals_cleared.
  rewrite filter_app, length_app; reflexivity.
Qed.

(** No handler touches the interval: only the effect does. *)
Lemma handler_leaves_interval (c : Component) (e : Event) (s : State) :
  intervals_armed (output (handler c e) s) = 0%nat /\
  intervals_cleared (output (handler c e) s) = 0%nat.
Proof.
  unfold handler, interval_callback.
  destruct e;
    repeat match goal with
           | |- context [if ?x then _ else _] => destruct x
           end;
    rewrite ?loadBalance_output;
    try (split; reflexivity).
  - unfold handleWithdraw.
    destruct (balance (seen (currentRender c))) as [b |];
      [| split; reflexivity].
    destruct (availableToWithdraw b =? 0); [split; reflexivity |].
    destruct (isManual (props (currentRender c))); split; reflexivity.
  - unfold handleDisconnect.
    destruct (negb (isManual (props (currentRender c))) && connected);
      split; reflexivity.
Qed.

(** A step arms an interval exactly when it clears one. *)
Lemma step_replaces_interval (c : Component) (e : Event) :
  intervals_armed (snd (step c e)) = intervals_cleared (snd (step c e)).
Proof.
  unfold step.
  set (p := match e with PropsChanged p' => p' | _ => live_props c end).
  destruct (handler_leaves_interval c e (live c)) as [Ha Hc].
  destruct (deps_eqb (depsOf (mkRender p (exec (handler c e) (live c))))
                     (deps c)) eqn:E.
  - apply deps_eqb_eq in E.
    rewrite commit_same by exact E; simpl.
    congruence.
  - assert (Hd : depsOf (mkRender p (exec (handler c e) (live c))) <> deps c).
    { intros Hd; apply deps_eqb_eq in Hd; congruence. }
    rewrite commit_changed by exact Hd; simpl.
    rewrite intervals_armed_app, intervals_cleared_app, Ha, Hc.
    reflexivity.
Qed.

Lemma run_replaces_interval (es : list Event) :
  forall c : Component,
    intervals_armed (snd (run c es)) = intervals_cleared (snd (run c es)).
Proof.
  induction es as [| e rest IH]; intros c; simpl.
  - reflexivity.
  - pose proof (step_replaces_interval c e) as Hstep.
    destruct (step c e) as [c1 out1].
    specialize (IH c1).
    destruct (run c1 rest) as [c2 out2]; simpl in *.
    rewrite intervals_armed_app, intervals_cleared_app.
    congruence.
Qed.

Lemma timer_ops_app (out1 out2 : list Effect) :
  timer_ops (out1 ++ out2) = timer_ops out1 ++ timer_ops out2.
Proof. unfold timer_ops; apply flat_map_app. Qed.

(** No handler makes an interval call. *)
Lemma handler_timer_ops (c : Component) (e : Event) (s : State) :
  timer_ops (output (handler c e) s) = [].
Proof.
  unfold handler, interval_callback.
  destruct e;
    repeat match goal with
           | |- context [if ?x then _ else _] => destruct x
           end;
    rewrite ?loadBalance_output;
    try reflexivity.
  - unfold handleWithdraw.
    destruct (balance (seen (currentRender c))) as [b |]; [| reflexivity].
    destruct (availableToWithdraw b =? 0); [reflexivity |].
    destruct (isManual (props (currentRender c))); reflexivity.
  - unfold handleDisconnect.
    destruct (negb (isManual (props (currentRender c))) && connected);
      reflexivity.
Qed.

(** A step makes no interval call, or clears the interval and then arms one
    of 30000 ms, in that order. *)
Lemma step_timer_ops (c : Component) (e : Event) :
  timer_ops (snd (step c e)) = [] \/
  timer_ops (snd (step c e)) = [Clear; Arm 30000].
Proof.
  unfold step.
  set (p := match e with PropsChanged p' => p' | _ => live_props c end).
  destruct (deps_eqb (depsOf (mkRender p (exec (handler c e) (live c))))
                     (deps c)) eqn:E.
  - left.
    apply deps_eqb_eq in E.
    rewrite commit_same by exact E; simpl.
    apply handler_timer_ops.
  - right.
    assert (Hd : depsOf (mkRender p (exec (handler c e) (live c))) <> deps c).
    { intros Hd; apply deps_eqb_eq in Hd; congruence. }
    rewrite commit_changed by exact Hd; simpl.
    rewrite timer_ops_app, handler_timer_ops; reflexivity.
Qed.

Lemma run_one_at_a_time (es : list Event) :
  forall c : Component,
    one_at_a_time true (timer_ops (snd (run c es))) = true.
Proof.
  induction es as [| e rest IH]; intros c; simpl.
  - reflexivity.
  - pose proof (step_timer_ops c e) as Hstep.
    destruct (step c e) as [c1 out1].
    specialize (IH c1).
    destruct (run c1 rest) as [c2 out2]; simpl in *.
    rewrite timer_ops_app.
    destruct Hstep as [-> | ->]; simpl; exact IH.
Qed.

(** X4.  The component owns one interval at a time.  Reading, in order, the
    interval calls made by the mount and by any sequence of events that
    follows: an interval is armed only when none is armed, always with a
    period of 30000 ms; [clearInterval] is called only when one is armed; at
    the end exactly one is armed.  So every re-run of the effect clears the
    interval of the previous run before it arms its own.  No handler makes an
    interval call: only the effect does. *)
Theorem X4_one_interval_at_a_time (p : Props) (es : list Event) :
  let out := snd (mount p) ++ snd (run (fst (mount p)) es) in
  one_at_a_time false (timer_ops out) = true /\
  intervals_armed out = S (intervals_cleared out) /\
  (forall (c : Component) (e : Event) (s : State),
      timer_ops (output (handler c e) s) = []) /\
  (forall (c : Component) (e : Event),
      timer_ops (snd (step c e)) = [] \/
      timer_ops (snd (step c e)) = [Clear; Arm 30000]).
Proof.
  cbv zeta.
  split; [| split; [| split]].
  - rewrite timer_ops_app, mount_first_render; simpl.
    apply run_one_at_a_time.
  - rewrite intervals_armed_app, intervals_cleared_app.
    rewrite run_replaces_interval, mount_first_render.
    reflexivity.
  - apply handler_timer_ops.
  - apply step_timer_ops.
Qed.

(** X5.  A manual refresh from a settled state that holds a balance enters
    the refreshing state, not the loading one: the balance stays on display,
    the error is cleared, and the balance API is called once for the live
    address. *)
Theorem X5_manual_refresh_keeps_balance_visible
    (c : Component) (b : WalletBalance) :
  effect_current c ->
  balance (live c) = Some b ->
  loading (live c) = false ->
  refreshing (live c) = false ->
  step c ClickRefresh
  = (mkComponent (live_props c)
                 (mkState (Some b) false true None
                          (showWithdrawModal (live c)) (qrCode (live c)))
                 (deps c) (interval c),
     [getWalletBalance (isTestnet (live_props c))
                       (lockerAddress (currentRender c))
                       (address (live_props c))]).
Proof.
  intros [Hd _] Hb Hl Hr.
  unfold step, handler.
  rewrite Hl, Hr; cbn [orb].
  rewrite commit_same.
  - rewrite loadBalance_state, loadBalance_output.
    unfold currentRender; simpl.
    rewrite Hb, Hl; reflexivity.
  - unfold depsOf; simpl.
    rewrite loadBalance_keeps_modal.
    symmetry; exact Hd.
Qed.

(** X6.  While the spinner is shown ([loading]) no control exists: a click
    on refresh, withdraw, close or back changes nothing and calls nothing;
    the same holds for refresh while [refreshing], since the button is
    disabled. *)
Theorem X6_no_clicks_while_loading
    (c : Component) (now : Z) (connected : bool) :
  effect_current c ->
  (loading (live c) = true ->
   step c ClickRefresh = (c, []) /\
   step c (ClickWithdraw now) = (c, []) /\
   step c ClickClose = (c, []) /\
   step c (ClickBack connected) = (c, [])) /\
  (refreshing (live c) = true -> step c ClickRefresh = (c, [])).
Proof.
  intros [Hd _].
  assert (Hidle : commit (live_props c) c (ret tt (live c)) = (c, [])).
  { rewrite commit_same.
    - destruct c; reflexivity.
    - symmetry; exact Hd. }
  split.
  - intros Hl.
    unfold step, handler; rewrite Hl; cbn [orb].
    repeat split; exact Hidle.
  - intros Hr.
    unfold step, handler; rewrite Hr, orb_true_r.
    exact Hidle.
Qed.

End TimerFacts.

Section ClickFacts.
Context `{Imports}.
Import BalanceDisplay.

(** X7.  The withdraw button is never dead: whenever it is offered (a
    balance with a positive available amount, no spinner), a click leaves
    the component as it is and makes exactly one call, the QR encoding of
    the deep link in manual mode, [sendTransaction] in connected mode. *)
Theorem X7_offered_withdraw_acts (c : Component) (now : Z) :
  effect_current c ->
  loading (live c) = false ->
  withdrawOffered (live c) = true ->
  exists call,
    step c (ClickWithdraw now) = (c, [call]) /\
    (isManual (live_props c) = true ->
     call = QRCode_toDataURL
              (generateWithdrawDeepLink (lockerAddress (currentRender c))
                                        (isTestnet (live_props c)))) /\
    (isManual (live_props c) = false ->
     exists request, call = sendTransaction request).
Proof.
  intros [Hd _] Hl Hoffered.
  unfold withdrawOffered in Hoffered.
  destruct (balance (live c)) as [b |] eqn:Hb; [| discriminate].
  apply Z.ltb_lt in Hoffered.
  assert (Hpos : availableToWithdraw b <> 0).
  { intros Hz; rewrite Hz in Hoffered; inversion Hoffered. }
  eexists.
  split; [| split].
  - unfold step, handler, withdrawOffered.
    rewrite Hl, Hb.
    apply Z.ltb_lt in Hoffered; rewrite Hoffered; cbn [orb negb].
    rewrite commit_same.
    + rewrite handleWithdraw_keeps_state.
      unfold output.
      rewrite (handleWithdraw_passed (currentRender c) now (live c) b Hb Hpos).
      destruct c; reflexivity.
    + rewrite handleWithdraw_keeps_state.
      symmetry; exact Hd.
  - intros Hmode; simpl; rewrite Hmode; reflexivity.
  - intros Hmode; simpl; rewrite Hmode; eexists; reflexivity.
Qed.

(** X8.  A rejected transaction shows "Transaction failed. Please try again."
    and keeps the balance; the message stays only until the next step that
    calls the balance API (tick, refresh, run of the effect), which clears
    it. *)
Theorem X8_transaction_error_lasts_until_next_fetch
    (c : Component) (e : Event) :
  effect_current c ->
  let failed := fst (step c TransactionRejected) in
  error (live failed) = Some "Transaction failed. Please try again." /\
  balance (live failed) = balance (live c) /\
  (fetches (snd (step failed e)) <> 0%nat ->
   error (live (fst (step failed e))) = None).
Proof.
  intros [Hd _]; cbv zeta.
  split; [| split].
  - unfold step, handler.
    rewrite commit_same; [reflexivity |].
    symmetry; exact Hd.
  - rewrite step_balance; reflexivity.
  - apply fetching_step_clears_error.
Qed.

(** X9.  New props.  When the address or the network changes, the interval
    is cleared, the balance API is called at once for the new address and
    network and a new interval of 30000 ms is armed; the balance of the
    previous address stays held until that call returns.  When neither
    changes, nothing is called and the interval stays. *)
Theorem X9_props_change (c : Component) (p' : Props) :
  effect_current c ->
  ((address p' <> address (live_props c) \/
    isTestnet p' <> isTestnet (live_props c)) ->
   snd (step c (PropsChanged p'))
   = [clearInterval;
      getWalletBalance (isTestnet p') (lockerAddress (mkRender p' (live c)))
                       (address p');
      setInterval (mkRender p' (live c)) 30000] /\
   live_props (fst (step c (PropsChanged p'))) = p' /\
   balance (live (fst (step c (PropsChanged p')))) = balance (live c)) /\
  (address p' = address (live_props c) ->
   isTestnet p' = isTestnet (live_props c) ->
   step c (PropsChanged p')
   = (mkComponent p' (live c) (deps c) (interval c), [])).
Proof.
  intros [Hd _].
  split.
  - intros Hdiff.
    unfold step, handler.
    rewrite commit_changed.
    + repeat split.
      simpl; apply loadBalance_keeps_balance.
    + rewrite Hd; unfold depsOf, currentRender; simpl.
      intros [= Ha Ht]; destruct Hdiff as [Hn | Hn]; apply Hn; assumption.
  - intros Ha Ht.
    unfold step, handler.
    rewrite commit_same; [reflexivity |].
    rewrite Hd; unfold depsOf, currentRender; simpl.
    rewrite Ha, Ht; reflexivity.
Qed.

End ClickFacts.

(** * Further properties of AppContent *)

Section AppFacts.
Import App.

(** X10.  A connected address is validated once, behind the checking
    screen, whatever was shown before; when the service answers [true] the
    balance of the connected address is shown in connected mode, a manual
    address entered earlier being dropped. *)
Theorem X10_validated_wallet_is_shown (h : Hooks) (s : State) :
  truthy (tonAddress h) = true ->
  output (validation_effect h) s = [validateUserAddress (tonAddress h)] /\
  render h (exec (validation_effect h) s) = CheckingWallet /\
  exec (validation_resolved true) (exec (validation_effect h) s)
  = mkState None false false None /\
  render h (exec (validation_resolved true) (exec (validation_effect h) s))
  = Balance (BalanceDisplay.mkProps (tonAddress h) false (isTestnet h)).
Proof.
  intros Haddr.
  unfold validation_effect; rewrite Haddr.
  repeat split.
  unfold render, errorShown, mainView, currentAddress; simpl.
  rewrite !Haddr; reflexivity.
Qed.

(** X11.  With no wallet connected and no validation pending, entering a
    manual address shows its balance in manual mode, except that an empty
    address leaves the connector on screen; disconnecting then returns to
    the connector, with the manual address, the manual flag and the error
    cleared. *)
Theorem X11_manual_address_round_trip (h : Hooks) (s : State) (a : string) :
  tonAddress h = "" ->
  isValidatingTonConnect s = false ->
  render h (exec (handleAddressSet a) s)
  = (if truthy a
     then Balance (BalanceDisplay.mkProps a true (isTestnet h))
     else WalletConnector (isTestnet h)) /\
  exec handleDisconnect (exec (handleAddressSet a) s)
  = mkState None false false None /\
  render h (exec handleDisconnect (exec (handleAddressSet a) s))
  = WalletConnector (isTestnet h).
Proof.
  intros Hnone Hidle.
  unfold render, errorShown, mainView, currentAddress; simpl.
  rewrite Hnone, Hidle; simpl.
  repeat split.
  unfold exec; simpl.
  rewrite Hidle; reflexivity.
Qed.

(** X12.  Back on the "wallet not found" screen clears the error without
    waiting for the SDK: in a render for which the hook still reports the
    address, AppContent shows the balance screen of the very wallet whose
    validation answered [false], in the mode the manual flag holds. *)
Theorem X12_back_shows_rejected_wallet (h : Hooks) (s : State) :
  truthy (tonAddress h) = true ->
  let s1 := exec (notFound_back h) (exec (validation_resolved false) s) in
  render h (exec (validation_resolved false) s)
  = WalletNotFound "В этом кошельке нет депозитов" /\
  render h s1
  = Balance (BalanceDisplay.mkProps (tonAddress h) (isManual s) (isTestnet h)).
Proof.
  intros Haddr; cbv zeta.
  split.
  - unfold render, errorShown; simpl.
    rewrite Haddr; reflexivity.
  - unfold notFound_back.
    destruct (connected h);
      unfold render, errorShown, mainView, currentAddress; simpl;
      rewrite !Haddr; reflexivity.
Qed.

(** X13.  The "wallet not found" screen is shown exactly when no validation
    is pending, an address is connected and the error is a non-empty
    message; in particular never for a manual address alone. *)
Theorem X13_not_found_screen_iff (h : Hooks) (s : State) :
  route (render h s) = RouteNotFound <->
  (isValidatingTonConnect s = false /\
   truthy (tonAddress h) = true /\
   exists message, tonConnectError s = Some message /\ truthy message = true).
Proof.
  unfold render, errorShown, mainView, currentAddress.
  destruct (isValidatingTonConnect s); simpl.
  - split; [discriminate | intros [[=] _]].
  - destruct (truthy (tonAddress h)) eqn:Haddr.
    + destruct (tonConnectError s) as [message |].
      * destruct (truthy message) eqn:Hmsg; simpl.
        -- split; [| reflexivity].
           intros _; repeat split; exists message; auto.
        -- rewrite Haddr.
           split; [discriminate |].
           intros [_ [_ [m [[= <-] Hm]]]]; congruence.
      * rewrite Haddr.
        split; [discriminate |].
        intros [_ [_ [m [[=] _]]]].
    + split.
      * destruct (manualAddress s) as [a |]; [destruct (truthy a) |];
          discriminate.
      * intros [_ [[=] _]].
Qed.

End AppFacts.

Section RepollFacts.
Context `{Imports}.
Import BalanceDisplay.

(** X14.  The re-poll scheduled after a sent transaction runs the
    [loadBalance] of the render that handled the click: that render held a
    balance, so the re-poll enters the refreshing state and leaves [loading]
    and the balance alone; it calls the balance API once, for the address
    and network that render saw, whatever the props have become since. *)
Theorem X14_repoll_runs_click_render
    (c : Component) (r : Render) (b : WalletBalance) :
  effect_current c ->
  balance (seen r) = Some b ->
  step c (TimeoutFired r)
  = (mkComponent (live_props c)
                 (mkState (balance (live c)) (loading (live c)) true None
                          (showWithdrawModal (live c)) (qrCode (live c)))
                 (deps c) (interval c),
     [getWalletBalance (isTestnet (props r)) (lockerAddress r)
                       (address (props r))]).
Proof.
  intros [Hd _] Hb.
  unfold step, handler.
  rewrite commit_same.
  - rewrite loadBalance_state, loadBalance_output, Hb; reflexivity.
  - unfold depsOf; simpl.
    rewrite loadBalance_keeps_modal.
    symmetry; exact Hd.
Qed.

End RepollFacts.

(** * The further statements with a hypothesis, each tried on an input *)

Lemma X1_balance_changes_only_on_fetch_success_witness :
  BalanceDisplay.balance
    (BalanceDisplay.live
       (fst (BalanceDisplay.step sample_component BalanceDisplay.BalanceRejected)))
  = BalanceDisplay.balance (BalanceDisplay.live sample_component).
Proof.
  apply X1_balance_changes_only_on_fetch_success.
  intros b; discriminate.
Defined.

Lemma X2_balance_never_cleared_witness :
  BalanceDisplay.balance
    (BalanceDisplay.live
       (fst (BalanceDisplay.run sample_component
               [BalanceDisplay.BalanceRejected; BalanceDisplay.Tick;
                BalanceDisplay.PropsChanged sample_connected])))
  <> None.
Proof.
  apply X2_balance_never_cleared.
  intros Hnone; vm_compute in Hnone; discriminate Hnone.
Defined.

Lemma X5_manual_refresh_keeps_balance_visible_witness :
  snd (BalanceDisplay.step sample_component BalanceDisplay.ClickRefresh)
  = [BalanceDisplay.getWalletBalance false "0:locker-on-mainnet" "0:user"].
Proof.
  refine (f_equal snd
            (X5_manual_refresh_keeps_balance_visible
               sample_component sample_balance _ _ _ _)).
  - split; reflexivity.
  - reflexivity.
  - reflexivity.
  - reflexivity.
Defined.

Lemma X6_no_clicks_while_loading_witness :
  BalanceDisplay.step (fst (BalanceDisplay.mount sample_manual))
                      BalanceDisplay.ClickRefresh
  = (fst (BalanceDisplay.mount sample_manual), []).
Proof.
  refine (proj1 (proj1 (X6_no_clicks_while_loading
                          (fst (BalanceDisplay.mount sample_manual))
                          1700000000000 true _) _)).
  - split; reflexivity.
  - reflexivity.
Defined.

Lemma X7_offered_withdraw_acts_witness :
  exists call,
    BalanceDisplay.step sample_component
                        (BalanceDisplay.ClickWithdraw 1700000000000)
    = (sample_component, [call]).
Proof.
  destruct (X7_offered_withdraw_acts sample_component 1700000000000)
    as [call [Hstep _]].
  - split; reflexivity.
  - reflexivity.
  - reflexivity.
  - exists call; exact Hstep.
Defined.

Lemma X8_transaction_error_lasts_until_next_fetch_witness :
  BalanceDisplay.error
    (BalanceDisplay.live
       (fst (BalanceDisplay.step sample_component
                                 BalanceDisplay.TransactionRejected)))
  = Some "Transaction failed. Please try again.".
Proof.
  refine (proj1 (X8_transaction_error_lasts_until_next_fetch
                   sample_component BalanceDisplay.Tick _)).
  split; reflexivity.
Defined.

Lemma X9_props_change_witness :
  BalanceDisplay.live_props
    (fst (BalanceDisplay.step
            sample_component
            (BalanceDisplay.PropsChanged
               (BalanceDisplay.mkProps "0:other" true false))))
  = BalanceDisplay.mkProps "0:other" true false.
Proof.
  refine (proj1 (proj2 (proj1 (X9_props_change
                                 sample_component
                                 (BalanceDisplay.mkProps "0:other" true false)
                                 _) _))).
  - split; reflexivity.
  - left; discriminate.
Defined.

Lemma X10_validated_wallet_is_shown_witness :
  App.render sample_hooks (exec (App.validation_resolved true) sample_validating)
  = App.Balance (BalanceDisplay.mkProps "0:user" false false).
Proof.
  refine (proj2 (proj2 (proj2 (X10_validated_wallet_is_shown
                                 sample_hooks App.initialState _)))).
  reflexivity.
Defined.

Lemma X11_manual_address_round_trip_witness :
  App.render (App.mkHooks "" false true)
             (exec (App.handleAddressSet "0:typed") App.initialState)
  = App.Balance (BalanceDisplay.mkProps "0:typed" true true).
Proof.
  refine (proj1 (X11_manual_address_round_trip
                   (App.mkHooks "" false true) App.initialState "0:typed"
                   _ _)).
  - reflexivity.
  - reflexivity.
Defined.

Lemma X12_back_shows_rejected_wallet_witness :
  App.render sample_hooks
             (exec (App.notFound_back sample_hooks)
                   (exec (App.validation_resolved false) sample_validating))
  = App.Balance (BalanceDisplay.mkProps "0:user" false false).
Proof.
  refine (proj2 (X12_back_shows_rejected_wallet
                   sample_hooks sample_validating _)).
  reflexivity.
Defined.

Lemma X14_repoll_runs_click_render_witness :
  snd (BalanceDisplay.step
         sample_component
         (BalanceDisplay.TimeoutFired
            (BalanceDisplay.mkRender sample_connected
                                     (sample_loaded sample_balance))))
  = [BalanceDisplay.getWalletBalance true "0:locker-on-testnet" "0:user"].
Proof.
  refine (f_equal snd
            (X14_repoll_runs_click_render
               sample_component
               (BalanceDisplay.mkRender sample_connected
                                        (sample_loaded sample_balance))
               sample_balance _ _)).
  - split; reflexivity.
  - reflexivity.
Defined.

(** * A fetch that returns while another has failed *)

Section OverlappingFetches.
Context `{Imports}.
Import BalanceDisplay.






End OverlappingFetches.


